(** * deploy.py: the deployment descriptor of the fast-mcp service

    The repository consists of one script, [deploy.py].  It imports the
    deployment SDK ([truefoundry.deploy]), configures logging, builds one
    [Service] descriptor out of literal values with the SDK's value
    constructors and hands it to the SDK's [deploy] operation.

    The SDK is an external collaborator.  It is a parameter of the whole
    development (an [Installation] of a [Client]): importing it may raise,
    its constructors may reject their arguments by raising, and its [deploy]
    may raise or return.  The script is embedded as a program in a small
    monad that threads the state of the running process and propagates
    raised exceptions. *)

From Stdlib Require Import String ZArith List Bool PrimFloat Lia.
Import ListNotations.

#[local] Open Scope string_scope.
#[local] Open Scope list_scope.
#[local] Open Scope Z_scope.

(** ** Values built by the script *)

(** A keyword argument of a constructor call whose parameters the script
    never names ([LocalSource()], [NodeSelector()]). *)
Inductive pyarg : Type :=
| ArgStr (s : string)
| ArgBool (b : bool)
| ArgStrs (l : list string).

Definition kwargs : Type := list (string * pyarg).

(** [LocalSource(...)]: the fields are the keyword arguments of the call. *)
Record LocalSource : Type := mkLocalSource {
  local_source_kwargs : kwargs
}.

Record DockerFileBuild : Type := mkDockerFileBuild {
  dockerfile_path : string;
  build_context_path : string
}.

Record Build : Type := mkBuild {
  build_source : LocalSource;
  build_spec : DockerFileBuild
}.

(** [NodeSelector(...)]: the fields are the keyword arguments of the call. *)
Record NodeSelector : Type := mkNodeSelector {
  node_selector_kwargs : kwargs
}.

Record Resources : Type := mkResources {
  cpu_request : float;
  cpu_limit : float;
  memory_request : Z;
  memory_limit : Z;
  ephemeral_storage_request : Z;
  ephemeral_storage_limit : Z;
  node : NodeSelector
}.

Record Port : Type := mkPort {
  port : Z;
  protocol : string;
  expose : bool;
  app_protocol : string;
  host : string;
  path : string
}.

Record Service : Type := mkService {
  name : string;
  image : Build;
  resources : Resources;
  ports : list Port;
  replicas : float
}.

(** Request against limit, dimension by dimension, with Python's [<=]:
    IEEE comparison on floats, integer comparison on ints. *)
Definition cpu_within_limit (r : Resources) : bool :=
  PrimFloat.leb (cpu_request r) (cpu_limit r).

Definition memory_within_limit (r : Resources) : bool :=
  memory_request r <=? memory_limit r.

Definition ephemeral_storage_within_limit (r : Resources) : bool :=
  ephemeral_storage_request r <=? ephemeral_storage_limit r.

(** ** Outcomes and the external client *)

Inductive outcome (E A : Type) : Type :=
| Returned (a : A)
| Raised (e : E).

Arguments Returned {E A} a.
Arguments Raised {E A} e.

(** The deployment SDK as the script uses it.  A constructor validates its
    arguments: [Some e] means it raises [e], [None] means the object is
    created with the fields it was given.  [deploy] is a method: Python hands
    it the receiver itself, so besides returning a deployment or raising, and
    besides what it does to the remote control plane, it leaves the receiver
    in some state, which is the second component of its result. *)
Record Client : Type := mkClient {
  exn : Type;
  control_plane : Type;
  deployment : Type;
  init_LocalSource : LocalSource -> option exn;
  init_DockerFileBuild : DockerFileBuild -> option exn;
  init_Build : Build -> option exn;
  init_NodeSelector : NodeSelector -> option exn;
  init_Resources : Resources -> option exn;
  init_Port : Port -> option exn;
  init_Service : Service -> option exn;
  deploy : Service -> string -> bool -> control_plane ->
           outcome exn deployment * Service * control_plane
}.

(** A call into the SDK, as recorded in the order the process makes them. *)
Inductive call : Type :=
| Construct (cls : string)
| Deploy (receiver : Service) (workspace_fqn : string) (wait : bool).

Definition is_deploy (c : call) : bool :=
  match c with
  | Deploy _ _ _ => true
  | Construct _ => false
  end.

Definition deploy_calls (l : list call) : list call := filter is_deploy l.

(** ** The running process *)

Section Script.

Variable sdk : Client.

(** What the process can observe locally ([root_level], the level of the
    root logger once configured; [global_service], the module-level name
    [service]), the remote side, and the calls made so far. *)
Record process : Type := mkProcess {
  root_level : option Z;
  global_service : option Service;
  remote : control_plane sdk;
  calls : list call
}.

Definition fresh (w : control_plane sdk) : process :=
  {| root_level := None; global_service := None; remote := w; calls := [] |}.

Definition M (A : Type) : Type := process -> outcome (exn sdk) A * process.

Definition ret {A : Type} (a : A) : M A := fun p => (Returned a, p).

Definition bind {A B : Type} (m : M A) (k : A -> M B) : M B :=
  fun p =>
    match m p with
    | (Returned a, p1) => k a p1
    | (Raised e, p1) => (Raised e, p1)
    end.

Notation "x <- m ;; k" := (bind m (fun x => k))
  (at level 61, m at next level, right associativity).
Notation "m ;;; k" := (bind m (fun _ => k))
  (at level 61, right associativity).

Definition record_call (c : call) (p : process) : process :=
  {| root_level := root_level p; global_service := global_service p;
     remote := remote p; calls := calls p ++ [c] |}.

(** A constructor call of class [cls]: the SDK validates, then the object
    holds the fields it was given. *)
Definition new {A : Type} (cls : string) (init : A -> option (exn sdk)) (a : A) : M A :=
  fun p =>
    match init a with
    | Some e => (Raised e, record_call (Construct cls) p)
    | None => (Returned a, record_call (Construct cls) p)
    end.

(** [logging.INFO] *)
Definition INFO : Z := 20.

(** [logging.basicConfig(level=...)]: configures the root logger unless it
    is configured already. *)
Definition basicConfig (level : Z) : M unit :=
  fun p =>
    (Returned tt,
     match root_level p with
     | Some _ => p
     | None => {| root_level := Some level; global_service := global_service p;
                  remote := remote p; calls := calls p |}
     end).

(** The assignment [service = ...] at module level. *)
Definition assign_service (s : Service) : M unit :=
  fun p =>
    (Returned tt,
     {| root_level := root_level p; global_service := Some s;
        remote := remote p; calls := calls p |}).

(** The method call [service.deploy(workspace_fqn=..., wait=...)], [s]
    being the object the name [service] is bound to: what the call leaves
    in the receiver is what the name denotes afterwards. *)
Definition call_deploy (s : Service) (workspace_fqn : string) (wait : bool)
  : M (deployment sdk) :=
  fun p =>
    let p1 := record_call (Deploy s workspace_fqn wait) p in
    let '(r, s1, w) := deploy sdk s workspace_fqn wait (remote p1) in
    (r, {| root_level := root_level p1; global_service := Some s1;
           remote := w; calls := calls p1 |}).

(** ** The script *)

(** Lines 14-42, the expression [Service(...)].  Python evaluates the
    arguments of a call before the call, left to right. *)
Definition service_expr : M Service :=
  src <- new "LocalSource" (init_LocalSource sdk)
           {| local_source_kwargs := [] |} ;;
  spec <- new "DockerFileBuild" (init_DockerFileBuild sdk)
            {| dockerfile_path := "./Dockerfile"; build_context_path := "./" |} ;;
  img <- new "Build" (init_Build sdk)
           {| build_source := src; build_spec := spec |} ;;
  sel <- new "NodeSelector" (init_NodeSelector sdk)
           {| node_selector_kwargs := [] |} ;;
  res <- new "Resources" (init_Resources sdk)
           {| cpu_request := 0.5%float;
              cpu_limit := 0.5%float;
              memory_request := 1000;
              memory_limit := 1000;
              ephemeral_storage_request := 500;
              ephemeral_storage_limit := 500;
              node := sel |} ;;
  p <- new "Port" (init_Port sdk)
         {| port := 8096;
            protocol := "TCP";
            expose := true;
            app_protocol := "http";
            host := "ml.tfy-eo.truefoundry.cloud";
            path := "/fast-mcp-rishi-ws-8096/" |} ;;
  new "Service" (init_Service sdk)
    {| name := "fast-mcp";
       image := img;
       resources := res;
       ports := [p];
       replicas := 1.0%float |}.

(** Lines 12-42: logging, then the descriptor bound to [service]. *)
Definition prelude : M Service :=
  basicConfig INFO ;;;
  s <- service_expr ;;
  assign_service s ;;;
  ret s.

(** Line 45. *)
Definition submit (s : Service) : M (deployment sdk) :=
  call_deploy s "tfy-ea-dev-eo-az:rishi-ws" false.

(** Lines 12-45: the body of the module, once the imports of lines 1-10
    have bound the names it uses to the SDK's. *)
Definition script : M unit :=
  s <- prelude ;;
  submit s ;;;
  ret tt.

(** The service expression evaluates to [d] (every constructor accepts). *)
Definition constructs (w : control_plane sdk) (d : Service) : Prop :=
  fst (service_expr (fresh w)) = Returned d.

End Script.

Arguments root_level {sdk} p.
Arguments global_service {sdk} p.
Arguments remote {sdk} p.
Arguments calls {sdk} p.

(** ** The module *)

(** An environment to run the module in: what importing
    [truefoundry.deploy] raises, if it raises, and the SDK the names are
    bound to if it does not. *)
Record Installation : Type := mkInstallation {
  client : Client;
  import_truefoundry : option (exn client)
}.

(** Lines 1-10.  [import logging] is the standard library's and binds the
    name; [from truefoundry.deploy import (...)] runs the SDK's module and
    raises what it raises (an [ImportError] when it is missing or lacks one
    of the seven names). *)
Definition import_names (inst : Installation) : M (client inst) unit :=
  fun p =>
    match import_truefoundry inst with
    | Some e => (Raised e, p)
    | None => (Returned tt, p)
    end.

(** [deploy.py], run top to bottom. *)
Definition deploy_py (inst : Installation) : M (client inst) unit :=
  bind (client inst) (import_names inst) (fun _ => script (client inst)).

(** ** What the client receives *)

(** The arguments of one [deploy] call: receiver, [workspace_fqn], [wait]. *)
Definition received : Type := list (Service * string * bool).

(** The same client, keeping on the remote side a tally of the [deploy]
    calls made on it, each with the arguments it was given. *)
Definition recording (sdk : Client) : Client :=
  {| exn := exn sdk;
     control_plane := control_plane sdk * received;
     deployment := deployment sdk;
     init_LocalSource := init_LocalSource sdk;
     init_DockerFileBuild := init_DockerFileBuild sdk;
     init_Build := init_Build sdk;
     init_NodeSelector := init_NodeSelector sdk;
     init_Resources := init_Resources sdk;
     init_Port := init_Port sdk;
     init_Service := init_Service sdk;
     deploy := fun s workspace_fqn wait wl =>
       let '(r, s1, w1) := deploy sdk s workspace_fqn wait (fst wl) in
       (r, s1, (w1, snd wl ++ [(s, workspace_fqn, wait)])) |}.

Definition observed (inst : Installation) : Installation :=
  {| client := recording (client inst);
     import_truefoundry := import_truefoundry inst |}.

(** The [deploy] calls the client receives in a run of the module started
    on the control plane [w]. *)
Definition deploy_received (inst : Installation) (w : control_plane (client inst))
  : received :=
  snd (remote (snd (deploy_py (observed inst)
                      (fresh (recording (client inst)) (w, []))))).

(** ** The descriptor and the calls that build it *)

(** The value of lines 14-42 when no constructor raises. *)
Definition service : Service :=
  {| name := "fast-mcp";
     image :=
       {| build_source := {| local_source_kwargs := [] |};
          build_spec :=
            {| dockerfile_path := "./Dockerfile"; build_context_path := "./" |} |};
     resources :=
       {| cpu_request := 0.5%float;
          cpu_limit := 0.5%float;
          memory_request := 1000;
          memory_limit := 1000;
          ephemeral_storage_request := 500;
          ephemeral_storage_limit := 500;
          node := {| node_selector_kwargs := [] |} |};
     ports :=
       [ {| port := 8096;
            protocol := "TCP";
            expose := true;
            app_protocol := "http";
            host := "ml.tfy-eo.truefoundry.cloud";
            path := "/fast-mcp-rishi-ws-8096/" |} ];
     replicas := 1.0%float |}.

(** Constructor calls of the service expression, in evaluation order. *)
Definition construction_calls : list call :=
  [ Construct "LocalSource"; Construct "DockerFileBuild"; Construct "Build";
    Construct "NodeSelector"; Construct "Resources"; Construct "Port";
    Construct "Service" ].

(** ** Validation in evaluation order *)

(** What each constructor call of lines 14-42 answers, in the order Python
    makes the calls: the arguments of a call before the call itself, left to
    right, each on the component of [service] it is given. *)
Definition validations (sdk : Client) : list (string * option (exn sdk)) :=
  [ ("LocalSource", init_LocalSource sdk (build_source (image service)));
    ("DockerFileBuild", init_DockerFileBuild sdk (build_spec (image service)));
    ("Build", init_Build sdk (image service));
    ("NodeSelector", init_NodeSelector sdk (node (resources service)));
    ("Resources", init_Resources sdk (resources service)) ]
  ++ map (fun p => ("Port", init_Port sdk p)) (ports service)
  ++ [ ("Service", init_Service sdk service) ].

(** The exception of the first call that raises, if one does. *)
Fixpoint first_rejection {E : Type} (l : list (string * option E)) : option E :=
  match l with
  | [] => None
  | (_, Some e) :: _ => Some e
  | (_, None) :: rest => first_rejection rest
  end.

(** The calls made up to and including the first one that raises. *)
Fixpoint calls_until_rejection {E : Type} (l : list (string * option E)) : list call :=
  match l with
  | [] => []
  | (cls, Some _) :: _ => [Construct cls]
  | (cls, None) :: rest => Construct cls :: calls_until_rejection rest
  end.

(** An expression statement drops the value of its expression. *)
Definition discard {E A : Type} (o : outcome E A) : outcome E unit :=
  match o with
  | Returned _ => Returned tt
  | Raised e => Raised e
  end.

(** Every call of a complete run, in order. *)
Definition all_calls : list call :=
  construction_calls ++ [Deploy service "tfy-ea-dev-eo-az:rishi-ws" false].

(** ** Clients to run the script against *)

(** Accepts everything; the control plane is the list of requests received
    (workspace and wait flag), a deployment is its sequence number. *)
Definition quiet_client : Client :=
  {| exn := string;
     control_plane := list (string * bool);
     deployment := nat;
     init_LocalSource := fun _ => None;
     init_DockerFileBuild := fun _ => None;
     init_Build := fun _ => None;
     init_NodeSelector := fun _ => None;
     init_Resources := fun _ => None;
     init_Port := fun _ => None;
     init_Service := fun _ => None;
     deploy := fun s ws wait w => (Returned (length w), s, w ++ [(ws, wait)]) |}.

(** Accepts every descriptor and refuses every deployment. *)
Definition denying_client : Client :=
  {| exn := string;
     control_plane := list (string * bool);
     deployment := nat;
     init_LocalSource := fun _ => None;
     init_DockerFileBuild := fun _ => None;
     init_Build := fun _ => None;
     init_NodeSelector := fun _ => None;
     init_Resources := fun _ => None;
     init_Port := fun _ => None;
     init_Service := fun _ => None;
     deploy := fun s _ _ w => (Raised "Unauthorized", s, w) |}.

(** Rejects ports above 1024 at construction. *)
Definition strict_client : Client :=
  {| exn := string;
     control_plane := list (string * bool);
     deployment := nat;
     init_LocalSource := fun _ => None;
     init_DockerFileBuild := fun _ => None;
     init_Build := fun _ => None;
     init_NodeSelector := fun _ => None;
     init_Resources := fun _ => None;
     init_Port := fun p => if 1024 <? port p then Some "ValidationError" else None;
     init_Service := fun _ => None;
     deploy := fun s ws wait w => (Returned (length w), s, w ++ [(ws, wait)]) |}.

(** Rejects the resources and the port, each with an exception of its own,
    and would refuse the deployment too. *)
Definition fussy_client : Client :=
  {| exn := string;
     control_plane := list (string * bool);
     deployment := nat;
     init_LocalSource := fun _ => None;
     init_DockerFileBuild := fun _ => None;
     init_Build := fun _ => None;
     init_NodeSelector := fun _ => None;
     init_Resources := fun r =>
       if memory_limit r <? 2000 then Some "QuotaError" else None;
     init_Port := fun p => if 1024 <? port p then Some "ValidationError" else None;
     init_Service := fun _ => None;
     deploy := fun s _ _ w => (Raised "Unauthorized", s, w) |}.


(** The clients, installed. *)
Definition quiet_install : Installation :=
  {| client := quiet_client; import_truefoundry := None |}.

Definition denying_install : Installation :=
  {| client := denying_client; import_truefoundry := None |}.

Definition strict_install : Installation :=
  {| client := strict_client; import_truefoundry := None |}.


(** The SDK is not installed: the import of line 2 raises. *)
Definition missing_install : Installation :=
  {| client := quiet_client; import_truefoundry := Some "ModuleNotFoundError" |}.

(** ** Runs on the clients *)

(** The quiet run just before and just after line 45. *)
Definition quiet_built : process quiet_client :=
  mkProcess quiet_client (Some 20) (Some service) [] construction_calls.

Definition quiet_submitted : process quiet_client :=
  mkProcess quiet_client (Some 20) (Some service)
    [("tfy-ea-dev-eo-az:rishi-ws", false)]
    (construction_calls ++ [Deploy service "tfy-ea-dev-eo-az:rishi-ws" false]).

Example quiet_prelude_run :
  prelude quiet_client (fresh quiet_client []) = (Returned service, quiet_built).
Proof. reflexivity. Qed.

Example quiet_run :
  script quiet_client (fresh quiet_client []) = (Returned tt, quiet_submitted).
Proof. reflexivity. Qed.

Example denying_run :
  script denying_client (fresh denying_client []) =
  (Raised "Unauthorized",
   mkProcess denying_client (Some 20) (Some service) []
     (construction_calls ++ [Deploy service "tfy-ea-dev-eo-az:rishi-ws" false])).
Proof. reflexivity. Qed.

(** The port is rejected: nothing is bound, nothing is deployed. *)
Example strict_run :
  script strict_client (fresh strict_client []) =
  (Raised "ValidationError",
   mkProcess strict_client (Some 20) None []
     [ Construct "LocalSource"; Construct "DockerFileBuild"; Construct "Build";
       Construct "NodeSelector"; Construct "Resources"; Construct "Port" ]).
Proof. reflexivity. Qed.

(** ** Lemmas about the steps *)

Section Steps.

Variable sdk : Client.

Implicit Types (p : process sdk) (d : Service).

(** A service expression that returns has built [service], made the seven
    constructor calls in order, and touched nothing else. *)
Lemma service_expr_returned p d p1 :
  service_expr sdk p = (Returned d, p1) ->
  d = service /\
  p1 = {| root_level := root_level p; global_service := global_service p;
          remote := remote p; calls := calls p ++ construction_calls |}.
Proof.
  unfold service_expr, bind, new, record_call; simpl.
  destruct (init_LocalSource sdk _); [discriminate|].
  destruct (init_DockerFileBuild sdk _); [discriminate|].
  destruct (init_Build sdk _); [discriminate|].
  destruct (init_NodeSelector sdk _); [discriminate|].
  destruct (init_Resources sdk _); [discriminate|].
  destruct (init_Port sdk _); [discriminate|].
  destruct (init_Service sdk _); [discriminate|].
  intros H; inversion H; subst; clear H.
  split; [reflexivity|].
  f_equal. repeat rewrite <- app_assoc. reflexivity.
Qed.

Lemma constructs_service w d : constructs sdk w d -> d = service.
Proof.
  unfold constructs. intros H.
  destruct (service_expr sdk (fresh sdk w)) as [r p1] eqn:E.
  simpl in H; subst r.
  apply service_expr_returned in E. tauto.
Qed.

End Steps.

(** ** Properties of the script *)

(** C4.  When the service expression evaluates to a descriptor, the
    descriptor's [name] is the string "fast-mcp". *)
Theorem name_is_fast_mcp (sdk : Client) (w : control_plane sdk) (d : Service) :
  constructs sdk w d -> name d = "fast-mcp".
Proof.
  intros H. apply constructs_service in H. subst d. reflexivity.
Qed.

Lemma name_is_fast_mcp_witness :
  constructs quiet_client [] service /\ name service = "fast-mcp".
Proof.
  split; [reflexivity | apply (name_is_fast_mcp quiet_client [] service); reflexivity].
Defined.

(** C2.  The descriptor's [ports] is a sequence of exactly one entry, with
    [port] 8096, [protocol] "TCP", [expose] true, [app_protocol] "http",
    [host] "ml.tfy-eo.truefoundry.cloud" and [path]
    "/fast-mcp-rishi-ws-8096/". *)
Theorem ports_single_entry (sdk : Client) (w : control_plane sdk) (d : Service) :
  constructs sdk w d ->
  exists p : Port,
    ports d = [p] /\
    port p = 8096 /\
    protocol p = "TCP" /\
    expose p = true /\
    app_protocol p = "http" /\
    host p = "ml.tfy-eo.truefoundry.cloud" /\
    path p = "/fast-mcp-rishi-ws-8096/".
Proof.
  intros H. apply constructs_service in H. subst d.
  eexists. split; [reflexivity|]. repeat split.
Qed.

Lemma ports_single_entry_witness :
  constructs quiet_client [] service /\
  exists p : Port,
    ports service = [p] /\
    port p = 8096 /\
    protocol p = "TCP" /\
    expose p = true /\
    app_protocol p = "http" /\
    host p = "ml.tfy-eo.truefoundry.cloud" /\
    path p = "/fast-mcp-rishi-ws-8096/".
Proof.
  split; [reflexivity | apply (ports_single_entry quiet_client [] service); reflexivity].
Defined.

(** C3.  In the descriptor's [resources], request equals limit in every
    dimension: cpu 0.5 and 0.5, memory 1000 and 1000, ephemeral storage 500
    and 500 (equal as values, and equal under Python's [==] on floats). *)
Theorem resources_request_eq_limit (sdk : Client) (w : control_plane sdk) (d : Service) :
  constructs sdk w d ->
  (cpu_request (resources d) = 0.5%float /\
   cpu_limit (resources d) = 0.5%float /\
   PrimFloat.eqb (cpu_request (resources d)) (cpu_limit (resources d)) = true) /\
  (memory_request (resources d) = 1000 /\
   memory_limit (resources d) = 1000) /\
  (ephemeral_storage_request (resources d) = 500 /\
   ephemeral_storage_limit (resources d) = 500).
Proof.
  intros H. apply constructs_service in H. subst d.
  repeat split.
Qed.

Lemma resources_request_eq_limit_witness :
  constructs quiet_client [] service /\
  (cpu_request (resources service) = 0.5%float /\
   cpu_limit (resources service) = 0.5%float /\
   PrimFloat.eqb (cpu_request (resources service)) (cpu_limit (resources service)) = true) /\
  (memory_request (resources service) = 1000 /\
   memory_limit (resources service) = 1000) /\
  (ephemeral_storage_request (resources service) = 500 /\
   ephemeral_storage_limit (resources service) = 500).
Proof.
  split; [reflexivity | apply (resources_request_eq_limit quiet_client [] service); reflexivity].
Defined.

(** C5.  The descriptor's [replicas] is the float 1.0. *)
Theorem replicas_is_one (sdk : Client) (w : control_plane sdk) (d : Service) :
  constructs sdk w d ->
  replicas d = 1.0%float /\ PrimFloat.eqb (replicas d) 1.0%float = true.
Proof.
  intros H. apply constructs_service in H. subst d. split; reflexivity.
Qed.

Lemma replicas_is_one_witness :
  constructs quiet_client [] service /\
  replicas service = 1.0%float /\ PrimFloat.eqb (replicas service) 1.0%float = true.
Proof.
  split; [reflexivity | apply (replicas_is_one quiet_client [] service); reflexivity].
Defined.

(** C6.  In every resource dimension of the descriptor (cpu, memory,
    ephemeral storage) the request is at most the limit. *)
Theorem resources_request_le_limit (sdk : Client) (w : control_plane sdk) (d : Service) :
  constructs sdk w d ->
  cpu_within_limit (resources d) = true /\
  memory_within_limit (resources d) = true /\
  ephemeral_storage_within_limit (resources d) = true.
Proof.
  intros H. apply constructs_service in H. subst d. repeat split.
Qed.

Lemma resources_request_le_limit_witness :
  constructs quiet_client [] service /\
  cpu_within_limit (resources service) = true /\
  memory_within_limit (resources service) = true /\
  ephemeral_storage_within_limit (resources service) = true.
Proof.
  split; [reflexivity | apply (resources_request_le_limit quiet_client [] service); reflexivity].
Defined.

(** C7.  The descriptor's [image] is a build whose source is the local
    source, constructed without arguments, and whose spec is a Dockerfile
    build with [dockerfile_path] "./Dockerfile" and [build_context_path]
    "./". *)
Theorem image_is_local_dockerfile_build
  (sdk : Client) (w : control_plane sdk) (d : Service) :
  constructs sdk w d ->
  build_source (image d) = {| local_source_kwargs := [] |} /\
  dockerfile_path (build_spec (image d)) = "./Dockerfile" /\
  build_context_path (build_spec (image d)) = "./".
Proof.
  intros H. apply constructs_service in H. subst d. repeat split.
Qed.

Lemma image_is_local_dockerfile_build_witness :
  constructs quiet_client [] service /\
  build_source (image service) = {| local_source_kwargs := [] |} /\
  dockerfile_path (build_spec (image service)) = "./Dockerfile" /\
  build_context_path (build_spec (image service)) = "./".
Proof.
  split; [reflexivity | apply (image_is_local_dockerfile_build quiet_client [] service); reflexivity].
Defined.

(** ** The run as a whole *)

Section Whole.

Variable sdk : Client.

Implicit Types (p : process sdk) (d : Service) (w : control_plane sdk).

(** The service expression, whatever the constructors answer: its outcome
    is the first rejection, its calls stop there, nothing else changes. *)
Lemma service_expr_run p :
  service_expr sdk p =
  (match first_rejection (validations sdk) with
   | Some e => Raised e
   | None => Returned service
   end,
   mkProcess sdk (root_level p) (global_service p) (remote p)
     (calls p ++ calls_until_rejection (validations sdk))).
Proof.
  unfold service_expr, bind, new, record_call, validations; simpl.
  destruct (init_LocalSource sdk _); simpl; [reflexivity|].
  destruct (init_DockerFileBuild sdk _); simpl;
    [rewrite <- !app_assoc; reflexivity|].
  destruct (init_Build sdk _); simpl;
    [rewrite <- !app_assoc; reflexivity|].
  destruct (init_NodeSelector sdk _); simpl;
    [rewrite <- !app_assoc; reflexivity|].
  destruct (init_Resources sdk _); simpl;
    [rewrite <- !app_assoc; reflexivity|].
  destruct (init_Port sdk _); simpl;
    [rewrite <- !app_assoc; reflexivity|].
  destruct (init_Service sdk _); simpl;
    rewrite <- !app_assoc; reflexivity.
Qed.

Lemma calls_until_rejection_accepted {E : Type} (l : list (string * option E)) :
  first_rejection l = None ->
  calls_until_rejection l = map (fun v => Construct (fst v)) l.
Proof.
  induction l as [|[cls [e|]] l IH]; simpl; intros H.
  - reflexivity.
  - discriminate.
  - rewrite IH by exact H. reflexivity.
Qed.

Lemma deploy_calls_until_rejection {E : Type} (l : list (string * option E)) :
  deploy_calls (calls_until_rejection l) = [].
Proof.
  induction l as [|[cls [e|]] l IH]; simpl; auto.
Qed.

(** The whole run when a constructor raises. *)
Lemma script_rejected p e :
  first_rejection (validations sdk) = Some e ->
  script sdk p =
  (Raised e,
   mkProcess sdk
     (match root_level p with Some l => Some l | None => Some INFO end)
     (global_service p) (remote p)
     (calls p ++ calls_until_rejection (validations sdk))).
Proof.
  intros H. unfold script, prelude, bind, basicConfig.
  rewrite service_expr_run, H.
  destruct p as [[l|] g r c]; reflexivity.
Qed.

(** The whole run when every constructor accepts. *)
Lemma script_accepted p :
  first_rejection (validations sdk) = None ->
  script sdk p =
  (discard (fst (fst (deploy sdk service "tfy-ea-dev-eo-az:rishi-ws" false (remote p)))),
   mkProcess sdk
     (match root_level p with Some l => Some l | None => Some INFO end)
     (Some (snd (fst (deploy sdk service "tfy-ea-dev-eo-az:rishi-ws" false (remote p)))))
     (snd (deploy sdk service "tfy-ea-dev-eo-az:rishi-ws" false (remote p)))
     (calls p ++ all_calls)).
Proof.
  intros H. unfold script, prelude, bind, basicConfig.
  rewrite service_expr_run, H.
  rewrite (calls_until_rejection_accepted _ H).
  unfold assign_service, ret, submit, call_deploy, record_call, all_calls.
  destruct p as [[l|] g r c]; simpl;
    destruct (deploy sdk service _ false r) as [[[x|e] s1] w1]; simpl;
    rewrite <- !app_assoc; reflexivity.
Qed.

Lemma constructs_accepted w d :
  constructs sdk w d -> first_rejection (validations sdk) = None.
Proof.
  unfold constructs. rewrite service_expr_run.
  destruct (first_rejection (validations sdk)); simpl; intros H;
    [discriminate H | reflexivity].
Qed.

End Whole.

(** ** Further properties of the run *)

(** Projections out of a run, leaving the client's answers folded. *)
Ltac project_run :=
  cbn [fst snd calls remote root_level global_service fresh app].

(** X1.  When several constructors would reject, the exception of the run
    is that of the first one in evaluation order (inner calls before outer,
    left to right), and no constructor after it is called. *)
Theorem first_rejection_wins (sdk : Client) (w : control_plane sdk) (e : exn sdk) :
  first_rejection (validations sdk) = Some e ->
  fst (script sdk (fresh sdk w)) = Raised e /\
  calls (snd (script sdk (fresh sdk w))) = calls_until_rejection (validations sdk).
Proof.
  intros H. rewrite (script_rejected sdk (fresh sdk w) e H).
  split; reflexivity.
Qed.

Lemma first_rejection_wins_witness :
  first_rejection (validations fussy_client) = Some "QuotaError" /\
  fst (script fussy_client (fresh fussy_client [])) = Raised "QuotaError" /\
  calls (snd (script fussy_client (fresh fussy_client []))) =
  [ Construct "LocalSource"; Construct "DockerFileBuild"; Construct "Build";
    Construct "NodeSelector"; Construct "Resources" ].
Proof.
  split; [reflexivity | apply (first_rejection_wins fussy_client [] "QuotaError"); reflexivity].
Defined.

(** X2.  When the construction of the descriptor raises, the run stops
    there: the name [service] is never bound and the remote control plane
    is left as it was; logging has been configured all the same. *)
Theorem rejected_descriptor_leaves_no_trace
  (sdk : Client) (w : control_plane sdk) (e : exn sdk) :
  fst (service_expr sdk (fresh sdk w)) = Raised e ->
  global_service (snd (script sdk (fresh sdk w))) = None /\
  remote (snd (script sdk (fresh sdk w))) = w /\
  root_level (snd (script sdk (fresh sdk w))) = Some INFO.
Proof.
  intros H. rewrite service_expr_run in H.
  destruct (first_rejection (validations sdk)) as [e'|] eqn:R.
  - rewrite (script_rejected sdk (fresh sdk w) e' R). repeat split.
  - discriminate H.
Qed.

Lemma rejected_descriptor_leaves_no_trace_witness :
  fst (service_expr strict_client (fresh strict_client [])) = Raised "ValidationError" /\
  global_service (snd (script strict_client (fresh strict_client []))) = None /\
  remote (snd (script strict_client (fresh strict_client []))) = [] /\
  root_level (snd (script strict_client (fresh strict_client []))) = Some INFO.
Proof.
  split; [reflexivity |
          apply (rejected_descriptor_leaves_no_trace strict_client [] "ValidationError");
          reflexivity].
Defined.

(** X5.  Once the descriptor is built, the script adds nothing to what
    [deploy] does: it returns exactly when the call returns (dropping the
    deployment), raises exactly what the call raises, and the control plane
    is the one the call leaves, the call having seen the initial one. *)
Theorem script_outcome_is_deploy_outcome
  (sdk : Client) (w : control_plane sdk) (d : Service) :
  constructs sdk w d ->
  fst (script sdk (fresh sdk w)) =
    discard (fst (fst (deploy sdk d "tfy-ea-dev-eo-az:rishi-ws" false w))) /\
  remote (snd (script sdk (fresh sdk w))) =
    snd (deploy sdk d "tfy-ea-dev-eo-az:rishi-ws" false w).
Proof.
  intros H. pose proof (constructs_accepted sdk w d H) as R.
  apply constructs_service in H. subst d.
  rewrite (script_accepted sdk (fresh sdk w) R). split; reflexivity.
Qed.

Lemma script_outcome_is_deploy_outcome_witness :
  constructs quiet_client [] service /\
  fst (script quiet_client (fresh quiet_client [])) = Returned tt /\
  remote (snd (script quiet_client (fresh quiet_client []))) =
    [("tfy-ea-dev-eo-az:rishi-ws", false)].
Proof.
  split; [reflexivity |
          apply (script_outcome_is_deploy_outcome quiet_client [] service); reflexivity].
Defined.

(** ** The module as a whole *)

Lemma deploy_py_imported (inst : Installation) (p : process (client inst)) :
  import_truefoundry inst = None -> deploy_py inst p = script (client inst) p.
Proof.
  intros H. unfold deploy_py, bind, import_names. rewrite H. reflexivity.
Qed.

Lemma deploy_py_unimportable
  (inst : Installation) (p : process (client inst)) (e : exn (client inst)) :
  import_truefoundry inst = Some e -> deploy_py inst p = (Raised e, p).
Proof.
  intros H. unfold deploy_py, bind, import_names. rewrite H. reflexivity.
Qed.

Section Received.

Variable inst : Installation.

Implicit Types (w : control_plane (client inst)) (e : exn (client inst)).

(** What the client receives, case by case.  The recording client
    validates as the client it records. *)
Lemma deploy_received_unimportable w e :
  import_truefoundry inst = Some e -> deploy_received inst w = [].
Proof.
  intros H. unfold deploy_received.
  rewrite (deploy_py_unimportable (observed inst) _ e H). reflexivity.
Qed.

Lemma deploy_received_rejected w e :
  import_truefoundry inst = None ->
  first_rejection (validations (client inst)) = Some e ->
  deploy_received inst w = [].
Proof.
  intros I R. unfold deploy_received.
  rewrite (deploy_py_imported (observed inst) _ I).
  change (client (observed inst)) with (recording (client inst)).
  rewrite (script_rejected (recording (client inst)) _ e R). reflexivity.
Qed.

Lemma deploy_received_accepted w :
  import_truefoundry inst = None ->
  first_rejection (validations (client inst)) = None ->
  deploy_received inst w = [(service, "tfy-ea-dev-eo-az:rishi-ws", false)].
Proof.
  intros I R. unfold deploy_received.
  rewrite (deploy_py_imported (observed inst) _ I).
  change (client (observed inst)) with (recording (client inst)).
  rewrite (script_accepted (recording (client inst)) _ R).
  cbn [snd remote fresh recording deploy fst app].
  destruct (deploy (client inst) service _ false w) as [[r s1] w1].
  reflexivity.
Qed.

End Received.

(** ** Properties of the module *)

(** C1.  When the import succeeds and the descriptor is built, the client
    receives exactly one [deploy] call in a run of the module: on that
    descriptor, with [workspace_fqn] the string "tfy-ea-dev-eo-az:rishi-ws"
    and [wait] false.  The process's own record of calls says the same. *)
Theorem deploy_invoked_once
  (inst : Installation) (w : control_plane (client inst)) (d : Service) :
  import_truefoundry inst = None ->
  constructs (client inst) w d ->
  deploy_received inst w = [(d, "tfy-ea-dev-eo-az:rishi-ws", false)] /\
  deploy_calls (calls (snd (deploy_py inst (fresh (client inst) w)))) =
  [Deploy d "tfy-ea-dev-eo-az:rishi-ws" false].
Proof.
  intros I H. pose proof (constructs_accepted _ w d H) as R.
  apply constructs_service in H. subst d. split.
  - apply deploy_received_accepted; assumption.
  - rewrite (deploy_py_imported inst _ I).
    rewrite (script_accepted (client inst) _ R). reflexivity.
Qed.

Lemma deploy_invoked_once_witness :
  deploy_received quiet_install [] =
    [(service, "tfy-ea-dev-eo-az:rishi-ws", false)] /\
  deploy_calls (calls (snd (deploy_py quiet_install (fresh quiet_client [])))) =
  [Deploy service "tfy-ea-dev-eo-az:rishi-ws" false].
Proof.
  apply (deploy_invoked_once quiet_install [] service); reflexivity.
Defined.

(** C8.  Nothing is caught: once the import has succeeded, the exception
    with which a constructor rejects the descriptor (the first to reject,
    in evaluation order), or with which the client's [deploy] answers the
    call, is the outcome of the module, as raised. *)
Theorem exceptions_propagate
  (inst : Installation) (w : control_plane (client inst)) (e : exn (client inst)) :
  import_truefoundry inst = None ->
  (first_rejection (validations (client inst)) = Some e \/
   (first_rejection (validations (client inst)) = None /\
    fst (fst (deploy (client inst) service "tfy-ea-dev-eo-az:rishi-ws" false w))
    = Raised e)) ->
  fst (deploy_py inst (fresh (client inst) w)) = Raised e.
Proof.
  intros I [R | [R D]]; rewrite (deploy_py_imported inst _ I).
  - rewrite (script_rejected (client inst) _ e R). reflexivity.
  - rewrite (script_accepted (client inst) _ R).
    cbn [fst remote fresh]. rewrite D. reflexivity.
Qed.

Lemma exceptions_propagate_witness :
  fst (deploy_py denying_install (fresh denying_client [])) = Raised "Unauthorized".
Proof.
  apply (exceptions_propagate denying_install [] "Unauthorized");
    [reflexivity | right; split; reflexivity].
Defined.




(** The descriptor's [resources.node] is a node selector constructed
    without arguments (line 29). *)
Lemma node_selector_without_arguments
  (sdk : Client) (w : control_plane sdk) (d : Service) :
  constructs sdk w d ->
  node (resources d) = {| node_selector_kwargs := [] |}.
Proof.
  intros H. apply constructs_service in H. subst d. reflexivity.
Qed.

(** X3.  The module raises nothing of its own: an exception that ends a
    run is the import's, or the first rejection of a constructor, or, every
    constructor having accepted, the exception of the one [deploy] call. *)
Theorem script_exception_origin
  (inst : Installation) (w : control_plane (client inst)) (e : exn (client inst)) :
  fst (deploy_py inst (fresh (client inst) w)) = Raised e ->
  import_truefoundry inst = Some e \/
  (import_truefoundry inst = None /\
   first_rejection (validations (client inst)) = Some e) \/
  (import_truefoundry inst = None /\
   first_rejection (validations (client inst)) = None /\
   fst (fst (deploy (client inst) service "tfy-ea-dev-eo-az:rishi-ws" false w))
   = Raised e).
Proof.
  destruct (import_truefoundry inst) as [e0|] eqn:I.
  - rewrite (deploy_py_unimportable inst _ e0 I). cbn [fst].
    intros H. left. congruence.
  - rewrite (deploy_py_imported inst _ I).
    destruct (first_rejection (validations (client inst))) as [e'|] eqn:R.
    + rewrite (script_rejected (client inst) _ e' R). cbn [fst].
      intros H. right; left. split; [reflexivity | congruence].
    + rewrite (script_accepted (client inst) _ R). cbn [fst remote fresh].
      destruct (fst (fst (deploy (client inst) service _ false w))) as [x|e'];
        cbn [discard]; intros H.
      * discriminate H.
      * right; right. repeat split. congruence.
Qed.

Lemma script_exception_origin_witness :
  import_truefoundry missing_install = Some "ModuleNotFoundError" \/
  (import_truefoundry missing_install = None /\
   first_rejection (validations (client missing_install)) = Some "ModuleNotFoundError") \/
  (import_truefoundry missing_install = None /\
   first_rejection (validations (client missing_install)) = None /\
   fst (fst (deploy (client missing_install) service
               "tfy-ea-dev-eo-az:rishi-ws" false []))
   = Raised "ModuleNotFoundError").
Proof.
  apply (script_exception_origin missing_install [] "ModuleNotFoundError").
  reflexivity.
Defined.

(** X4.  Whatever the installation, the client receives a [deploy] call
    only when the import succeeds and every constructor accepts, and then
    exactly one: on the fast-mcp descriptor, with workspace
    "tfy-ea-dev-eo-az:rishi-ws" and [wait] false. *)
Theorem deploy_only_after_construction
  (inst : Installation) (w : control_plane (client inst)) :
  deploy_received inst w =
  match import_truefoundry inst, first_rejection (validations (client inst)) with
  | None, None => [(service, "tfy-ea-dev-eo-az:rishi-ws", false)]
  | _, _ => []
  end.
Proof.
  destruct (import_truefoundry inst) as [e0|] eqn:I.
  - apply (deploy_received_unimportable inst w e0 I).
  - destruct (first_rejection (validations (client inst))) as [e|] eqn:R.
    + apply (deploy_received_rejected inst w e I R).
    + apply (deploy_received_accepted inst w I R).
Qed.
